(** * A shallow embedding of the CQRS core: the [Result] wrapper and the [Mediator]

    The development follows the two TypeScript modules of the package:
    - [types.ts]: the request shapes ([Command], [Query], [BaseCommand],
      [BaseQuery]), the handler interfaces and the [Result] class;
    - [mediator.ts]: the [Mediator] class with its two registries and
      [dispatch].

    JavaScript values are embedded as the inductive [JsValue]; a call that may
    throw returns a [Completion]; code that runs user callbacks (the transform
    given to [Result.map], a handler's [handle]) is threaded through an
    arbitrary world state.  For an [async] function the completion is what the
    awaiting caller observes: [Normal] for a fulfilled promise, [Throw] for a
    rejected one. *)

From Stdlib Require Import Ascii.
From stdpp Require Import gmap strings.

Open Scope string_scope.

(** ** JavaScript values *)

(** [new Error(message)]: the only part of an error object the package and its
    tests read is [message]. *)
Record Error := mkError { message : string }.

(** The values that may sit in a [Result], in a request's [kind] field or in
    its payload.  Numbers are the integers and NaN. *)
Inductive JsValue : Type :=
  | VUndefined
  | VNull
  | VBoolean (b : bool)
  | VNumber (n : Z)
  | VNaN
  | VString (s : string)
  | VError (e : Error)
  | VObject (fields : Fields)
with Fields : Type :=
  | FNil
  | FCons (key : string) (v : JsValue) (rest : Fields).

Definition new_Error (msg : string) : JsValue := VError (mkError msg).

(** [v === undefined] *)
Definition strict_eq_undefined (v : JsValue) : bool :=
  match v with
  | VUndefined => true
  | _ => false
  end.

(** [v === 'lit'] for a string literal: true only for that very string. *)
Definition strict_eq_string (v : JsValue) (lit : string) : bool :=
  match v with
  | VString s => bool_decide (s = lit)
  | _ => false
  end.

(** The truthiness test of [if (v)]: [undefined], [null], [false], [0], [NaN]
    and the empty string are falsy, every object is truthy. *)
Definition ToBoolean (v : JsValue) : bool :=
  match v with
  | VUndefined | VNull | VNaN => false
  | VBoolean b => b
  | VNumber n => negb (n =? 0)%Z
  | VString EmptyString => false
  | VString (String _ _) => true
  | VError _ | VObject _ => true
  end.

(** [o.key] on a plain data object; a missing property reads as [undefined],
    and so does a property of a primitive.  On [undefined] and [null], where
    the read throws, see [Examples.get_prop]; the handlers of the test suite
    below are stated and used on object payloads only. *)
Fixpoint assoc_field (key : string) (fields : Fields) : JsValue :=
  match fields with
  | FNil => VUndefined
  | FCons k v rest => if String.eqb k key then v else assoc_field key rest
  end.

Definition get_field (v : JsValue) (key : string) : JsValue :=
  match v with
  | VObject fields => assoc_field key fields
  | VError e => if String.eqb key "message" then VString (message e) else VUndefined
  | _ => VUndefined
  end.

(** ** Completions and the effect monad *)

(** The outcome of a call: a returned value or a thrown one. *)
Inductive Completion (A : Type) : Type :=
  | Normal (a : A)
  | Throw (exn : JsValue).
Arguments Normal {A} a.
Arguments Throw {A} exn.

(** Code that may have side effects and may throw, over a world [W] that
    stands for everything user callbacks can touch (stores, the console).
    A callback is a total function of the world: one whose promise never
    settles is outside the model. *)
Definition M (W A : Type) : Type := W -> Completion A * W.

Definition ret {W A} (a : A) : M W A := fun w => (Normal a, w).

Definition bind {W A B} (c : M W A) (k : A -> M W B) : M W B :=
  fun w =>
    match c w with
    | (Normal a, w') => k a w'
    | (Throw e, w') => (Throw e, w')
    end.

Notation "x <- c ;; k" := (bind c (fun x => k))
  (at level 100, c at next level, right associativity).

(** ** types.ts: requests *)

(** A class or constructor function; [dispatch] reads only its [name]. *)
Record Function := mkFunction { name : string }.

(** A prototype object, with the [constructor] property every class
    prototype (and [Object.prototype]) carries. *)
Record Prototype := mkPrototype { proto_constructor : Function }.

(** The built-in [Object] and [Object.prototype]. *)
Definition Object : Function := mkFunction "Object".
Definition Object_prototype : Prototype := mkPrototype Object.

(** [class C ... {}] declares the function [C], named after the class, whose
    [prototype] has [constructor] set to [C]. *)
Definition class_decl (class_name : string) : Function := mkFunction class_name.
Definition prototype_of (C : Function) : Prototype := mkPrototype C.

(** A request as [dispatch] receives it, typed [Command<any> | Query<any, any>]:
    the own fields [kind], [id], [timestamp] and the body ([payload] of a
    command, [params] of a query), and the prototype the object was created
    with.  [kind] is a [JsValue] because the fallback branch of [dispatch]
    exists for requests whose discriminator is neither of the two strings. *)
Record Message := mkMessage {
  kind : JsValue;
  id : string;
  timestamp : Z;
  body : JsValue;
  proto : Prototype
}.

(** [message.constructor] of a request as the declared types have it: not an
    own property, found on the prototype, and a function.  Requests with a
    [constructor] key of their own, or with none at all, are the matter of
    [Untyped] below. *)
Definition constructor (message : Message) : Function :=
  proto_constructor (proto message).

(** [new C(payload)] for [class C extends BaseCommand<...> {}]: the
    [BaseCommand] constructor sets [kind = 'command'], [id] and [timestamp];
    the clock and random reading that make up [id] and [timestamp] are taken
    as arguments. *)
Definition new_BaseCommand (C : Function) (id_ : string) (now : Z) (payload : JsValue) : Message :=
  {| kind := VString "command"; id := id_; timestamp := now;
     body := payload; proto := prototype_of C |}.

(** [new C(params)] for [class C extends BaseQuery<...> {}]. *)
Definition new_BaseQuery (C : Function) (id_ : string) (now : Z) (params : JsValue) : Message :=
  {| kind := VString "query"; id := id_; timestamp := now;
     body := params; proto := prototype_of C |}.

(** An object literal [{ kind, id, timestamp, payload }] with these four own
    keys and no other: its prototype is [Object.prototype]. *)
Definition object_literal (kind_ : JsValue) (id_ : string) (now : Z) (body_ : JsValue) : Message :=
  {| kind := kind_; id := id_; timestamp := now;
     body := body_; proto := Object_prototype |}.

(** ** types.ts: Result *)

(** [class Result<TValue>] with its two public readonly fields.  The private
    constructor is [mkResult]; [success] and [failure] are the only ways the
    package builds one. *)
Record Result := mkResult {
  value : JsValue;
  error : JsValue
}.

(** [static success(value?)]: an omitted argument is [undefined]. *)
Definition success (v : JsValue) : Result := mkResult v VUndefined.

(** [static failure(error)].  The parameter is typed [Error]; it is a
    [JsValue] here so that calls that break the type can be stated. *)
Definition failure (e : JsValue) : Result := mkResult VUndefined e.

(** [isSuccess()]: [this.error === undefined]. *)
Definition isSuccess (this : Result) : bool := strict_eq_undefined (error this).

(** [getValue()]: [return this.value]. *)
Definition getValue (this : Result) : Completion JsValue := Normal (value this).

(** [unwrap()]: [if (this.error) throw this.error; return this.value!]. *)
Definition unwrap (this : Result) : Completion JsValue :=
  if ToBoolean (error this) then Throw (error this) else Normal (value this).

(** [map(fn)]: the transform is a user callback, so it lives in [M]. *)
Definition map {W} (this : Result) (fn : JsValue -> M W JsValue) : M W Result :=
  if isSuccess this then
    v <- fn (value this) ;; ret (success v)
  else
    ret (failure (error this)).

(** ** types.ts: handler interfaces *)

(** [interface CommandHandler { handle(command): Promise<Result<void>> }] *)
Module CommandHandler.
Record t (W : Type) := mk { handle : Message -> M W Result }.
Arguments mk {W} handle.
Arguments handle {W} _ _.
End CommandHandler.

(** [interface QueryHandler { handle(query): Promise<Result<TResult>> }] *)
Module QueryHandler.
Record t (W : Type) := mk { handle : Message -> M W Result }.
Arguments mk {W} handle.
Arguments handle {W} _ _.
End QueryHandler.

(** ** mediator.ts: Mediator *)

(** The two private [Map<string, ...>] registries. *)
Record Mediator (W : Type) := mkMediator {
  commandHandlers : gmap string (CommandHandler.t W);
  queryHandlers : gmap string (QueryHandler.t W)
}.
Arguments mkMediator {W} _ _.
Arguments commandHandlers {W} _.
Arguments queryHandlers {W} _.

(** [new Mediator()] *)
Definition new_Mediator {W} : Mediator W := mkMediator ∅ ∅.

(** [this.commandHandlers.set(commandType, handler)] *)
Definition registerCommandHandler {W} (commandType : string)
    (handler : CommandHandler.t W) (this : Mediator W) : Mediator W :=
  mkMediator (<[commandType := handler]> (commandHandlers this)) (queryHandlers this).

(** [this.queryHandlers.set(queryType, handler)] *)
Definition registerQueryHandler {W} (queryType : string)
    (handler : QueryHandler.t W) (this : Mediator W) : Mediator W :=
  mkMediator (commandHandlers this) (<[queryType := handler]> (queryHandlers this)).

(** [async dispatch(message)].  [Map.get] answering [undefined] is [None], and
    a registered handler is an object, hence truthy in [if (!handler)]. *)
Definition dispatch {W} (this : Mediator W) (message : Message) : M W Result :=
  if strict_eq_string (kind message) "command" then
    let command := message in
    let handler := commandHandlers this !! name (constructor command) in
    match handler with
    | None =>
        ret (failure (new_Error ("No handler for command: " +:+ name (constructor command))))
    | Some h => CommandHandler.handle h command
    end
  else if strict_eq_string (kind message) "query" then
    let query := message in
    let handler := queryHandlers this !! name (constructor query) in
    match handler with
    | None =>
        ret (failure (new_Error ("No handler for query: " +:+ name (constructor query))))
    | Some h => QueryHandler.handle h query
    end
  else
    ret (failure (new_Error "Invalid message type: neither Command nor Query")).

(** [result.error?.message], as the tests read it. *)
Definition error_message (r : Result) : JsValue := get_field (error r) "message".

(** ** Instrumentation: counting the calls of a transform *)

(** [counted fn] behaves as [fn] and bumps a call counter kept beside the
    world, so that "was [fn] invoked" can be read off the final state. *)
Definition counted {W} (fn : JsValue -> M W JsValue) : JsValue -> M (W * nat) JsValue :=
  fun v s =>
    match fn v (fst s) with
    | (c, w') => (c, (w', S (snd s)))
    end.

(** A transform without effects. *)
Definition pure_fn {W} (f : JsValue -> JsValue) : JsValue -> M W JsValue :=
  fun v => ret (f v).

(** ** The handlers and requests of the test suite *)

(** The world of the examples is the console: the list of logged values. *)
Definition Console : Type := list JsValue.

(** The console before anything was logged. *)
Definition quiet : Console := [].

Definition console_log (v : JsValue) : M Console unit :=
  fun w => (Normal tt, (w ++ [v])%list).

Definition CreateUserCommand : Function := class_decl "CreateUserCommand".
Definition LogCommand : Function := class_decl "LogCommand".
Definition GetUserQuery : Function := class_decl "GetUserQuery".

(** [CreateUserHandler.handle]: [return Result.success()]. *)
Definition CreateUserHandler : CommandHandler.t Console :=
  CommandHandler.mk (fun command => ret (success VUndefined)).

(** [LogHandler.handle]: [console.log(command.payload.message)] and then
    [return Result.success()]. *)
Definition LogHandler : CommandHandler.t Console :=
  CommandHandler.mk (fun command =>
    _ <- console_log (get_field (body command) "message") ;;
    ret (success VUndefined)).

(** The test's [failingHandler]:
    [return Result.failure(new Error("Handler boom"))]. *)
Definition failingHandler : CommandHandler.t Console :=
  CommandHandler.mk (fun command => ret (failure (new_Error "Handler boom"))).

(** A handler whose body throws: [async handle() { throw new Error("boom") }]. *)
Definition throwingHandler : CommandHandler.t Console :=
  CommandHandler.mk (fun command w => (Throw (new_Error "boom"), w)).

Definition testUser : JsValue :=
  VObject (FCons "id" (VString "123") (FCons "name" (VString "Test User") FNil)).

(** [GetUserHandler.handle]: the user for [userId === "123"], else
    [Result.failure(new Error("User not found"))]. *)
Definition GetUserHandler : QueryHandler.t Console :=
  QueryHandler.mk (fun query =>
    if strict_eq_string (get_field (body query) "userId") "123"
    then ret (success testUser)
    else ret (failure (new_Error "User not found"))).

Definition jane : Message :=
  new_BaseCommand CreateUserCommand "cmd-1-0.5" 1
    (VObject (FCons "name" (VString "Jane") FNil)).

Definition testLog : Message :=
  new_BaseCommand LogCommand "cmd-2-0.5" 2
    (VObject (FCons "message" (VString "Test log") FNil)).

Definition getUser (userId : string) : Message :=
  new_BaseQuery GetUserQuery "query-3-0.5" 3
    (VObject (FCons "userId" (VString userId) FNil)).

(** The test's [{ kind: 'invalid', id: "bad", timestamp: new Date() }]. *)
Definition invalid : Message :=
  object_literal (VString "invalid") "bad" 4 VUndefined.


Definition literalQuery : Message :=
  object_literal (VString "query") "lit" 6
    (VObject (FCons "userId" (VString "123") FNil)).

(** [(user) => user.name], the transform of the [map] tests. *)
Definition userName : JsValue -> M Console JsValue :=
  pure_fn (fun user => get_field user "name").

(** A transform with a visible effect: it logs its argument. *)
Definition logging : JsValue -> M Console JsValue :=
  fun v => _ <- console_log v ;; ret v.

(** The mediator of the tests after bootstrap: the failing command handler
    and the user query handler. *)
Definition testMediator : Mediator Console :=
  registerQueryHandler (name GetUserQuery) GetUserHandler
    (registerCommandHandler (name CreateUserCommand) failingHandler new_Mediator).

(** The "should overwrite existing handlers" test: two registrations under
    one name. *)
Definition overwritten : Mediator Console :=
  registerCommandHandler (name CreateUserCommand) failingHandler
    (registerCommandHandler (name CreateUserCommand) CreateUserHandler new_Mediator).



(** ** The shape of a [Result] *)

(** A result never holds both a value and an error. *)
Definition exclusive (r : Result) : Prop :=
  value r = VUndefined \/ error r = VUndefined.

(** The results the declared types allow: [error] is [undefined] or an error
    object. *)
Definition typed_error (r : Result) : Prop :=
  error r = VUndefined \/ exists e : Error, error r = VError e.

(** The falsy values other than [undefined]: [null], [false], [0], [NaN] and
    the empty string. *)
Definition falsy_defined (v : JsValue) : Prop :=
  v = VNull \/ v = VBoolean false \/ v = VNumber 0 \/ v = VNaN \/ v = VString EmptyString.

(** A transform that throws: [() => { throw new Error("bad") }]. *)
Definition throwing : JsValue -> M Console JsValue :=
  fun v w => (Throw (new_Error "bad"), w).

(** ** try / catch *)

(** [try { c } catch (error) { h(error) }] *)
Definition try_catch {W A} (c : M W A) (h : JsValue -> M W A) : M W A :=
  fun w =>
    match c w with
    | (Normal a, w') => (Normal a, w')
    | (Throw exn, w') => h exn w'
    end.

(** A call without effects on the world, run inside [M]. *)
Definition lift {W A} (c : Completion A) : M W A := fun w => (c, w).

(** ** The example application: [CreateUserHandler] *)

Module Examples.

(** [console.log(...args)]: one entry per call, holding the arguments. *)
Definition Log : Type := list (list JsValue).

Definition console_log_args (args : list JsValue) : M Log unit :=
  fun w => (Normal tt, (w ++ [args])%list).

(** [s.includes(sub)] on strings. *)
Fixpoint includes (s sub : string) : bool :=
  if String.prefix sub s then true
  else match s with
       | EmptyString => false
       | String _ rest => includes rest sub
       end.

(** Why the engine raises a [TypeError] in the handler below: a property read
    on [undefined] or [null], or a call of something that is not a function. *)
Inductive TypeErrorCause : Type :=
  | ReadOfNullish (base : JsValue) (prop : string)
  | NotCallable (callee : JsValue) (prop : string).

Section Engine.

(** The error object the engine builds; its message is the engine's own. *)
Variable TypeError : TypeErrorCause -> Error.

(** [base.prop], throwing on [undefined] and [null]. *)
Definition get_prop (base : JsValue) (prop : string) : Completion JsValue :=
  match base with
  | VUndefined | VNull => Throw (VError (TypeError (ReadOfNullish base prop)))
  | _ => Normal (get_field base prop)
  end.

(** [recv.includes(sub)]: only a string carries a callable [includes] among
    the values of [JsValue], which holds no array and no function. *)
Definition call_includes (recv : JsValue) (sub : string) : Completion bool :=
  match recv with
  | VString s => Normal (includes s sub)
  | VUndefined | VNull => Throw (VError (TypeError (ReadOfNullish recv "includes")))
  | _ => Throw (VError (TypeError (NotCallable (get_field recv "includes") "includes")))
  end.

(** [CreateUserHandler.handle] of the example application.  The awaited
    100 ms timer between the validation and the second log has no effect on
    the world and is left out. *)
Definition CreateUserHandler : CommandHandler.t Log :=
  CommandHandler.mk (fun command =>
    try_catch
      (_ <- console_log_args [VString "Creating user:"; body command] ;;
       email <- lift (get_prop (body command) "email") ;;
       has_at <- lift (call_includes email "@") ;;
       if negb has_at then
         ret (failure (new_Error "Invalid email format"))
       else
         _ <- console_log_args [VString "User created successfully!"] ;;
         ret (success VUndefined))
      (fun error => ret (failure error))).

End Engine.

(** [new CreateUserCommand({ name, email })] *)
Definition createUser (name_ email : JsValue) : Message :=
  new_BaseCommand CreateUserCommand "cmd-7-0.5" 7
    (VObject (FCons "name" name_ (FCons "email" email FNil))).

(** An engine whose messages follow V8's wording, for the instances. *)
Definition v8 (cause : TypeErrorCause) : Error :=
  match cause with
  | ReadOfNullish base prop =>
      mkError ("Cannot read properties of "
               +:+ (match base with VNull => "null" | _ => "undefined" end)
               +:+ " (reading '" +:+ prop +:+ "')")
  | NotCallable _ prop => mkError ("command.payload.email." +:+ prop +:+ " is not a function")
  end.

End Examples.

(** ** mediator.ts once more: requests as plain objects *)

(** [dispatch] reads [message.kind] and [message.constructor.name] as
    ordinary properties.  [Message] above is the request the declared types
    describe: its [constructor] is inherited from its prototype and is a
    function.  This module embeds [dispatch] over arbitrary objects, where a
    [constructor] key of the object's own decides the name and a missing
    [constructor] makes the read of [.name] throw. *)
Module Untyped.

(** What a property may hold: a value of [JsValue], a [Date], or a function
    (a class). *)
Inductive Property : Type :=
  | PValue (v : JsValue)
  | PDate (ms : Z)
  | PFunction (f : Function).

(** The properties one object holds itself, each key once. *)
Definition Table : Type := list (string * Property).

(** An object: its own properties and the tables of its prototype chain,
    nearest first. *)
Record JsObject := mkJsObject {
  own : Table;
  prototypes : list Table
}.

Fixpoint table_get (key : string) (t : Table) : option Property :=
  match t with
  | [] => None
  | (k, p) :: rest => if String.eqb k key then Some p else table_get key rest
  end.

Fixpoint chain_get (key : string) (chain : list Table) : option Property :=
  match chain with
  | [] => None
  | t :: rest =>
      match table_get key t with
      | Some p => Some p
      | None => chain_get key rest
      end
  end.

(** [o.key]: the own property if there is one, else the first one found along
    the prototype chain; [None] when the read answers [undefined] for want of
    any such property. *)
Definition Get (o : JsObject) (key : string) : option Property :=
  chain_get key (own o :: prototypes o).

(** [Object.prototype]; of its properties [dispatch] can only reach
    [constructor]. *)
Definition Object_prototype : Table := [("constructor", PFunction Object)].

(** [C.prototype] of a class declaration. *)
Definition prototype (C : Function) : Table := [("constructor", PFunction C)].

Definition BaseCommand : Function := class_decl "BaseCommand".
Definition BaseQuery : Function := class_decl "BaseQuery".

(** An object literal [{ k1: v1, ... }] with the own properties [props] and no
    [__proto__] entry: its prototype is [Object.prototype]. *)
Definition literal (props : Table) : JsObject := mkJsObject props [Object_prototype].

(** An object without prototype: [Object.create(null)] with [props] assigned,
    or a literal with [__proto__: null]. *)
Definition create_null (props : Table) : JsObject := mkJsObject props [].

(** [new C(payload)] for [class C extends BaseCommand<...> {}]. *)
Definition new_BaseCommand (C : Function) (id_ : string) (now : Z) (payload : JsValue) : JsObject :=
  mkJsObject
    [("kind", PValue (VString "command")); ("id", PValue (VString id_));
     ("timestamp", PDate now); ("payload", PValue payload)]
    [prototype C; prototype BaseCommand; Object_prototype].

(** [new C(params)] for [class C extends BaseQuery<...> {}]; the phantom
    [_result] field, which nothing reads, is left out. *)
Definition new_BaseQuery (C : Function) (id_ : string) (now : Z) (params : JsValue) : JsObject :=
  mkJsObject
    [("kind", PValue (VString "query")); ("id", PValue (VString id_));
     ("timestamp", PDate now); ("params", PValue params)]
    [prototype C; prototype BaseQuery; Object_prototype].

(** [message.kind === 'lit'] *)
Definition kind_is (message : JsObject) (lit : string) : bool :=
  match Get message "kind" with
  | Some (PValue v) => strict_eq_string v lit
  | _ => false
  end.

(** [v.name] for a value that is neither [undefined] nor [null]: a data
    object answers its own [name] field, an error object the ["Error"] of
    [Error.prototype], a primitive [undefined]. *)
Definition name_of_value (v : JsValue) : JsValue :=
  match v with
  | VObject fields => assoc_field "name" fields
  | VError _ => VString "Error"
  | _ => VUndefined
  end.

(** The string a template literal splices in for [v], where it is the same in
    every engine and free of user code; numbers, error objects and data
    objects are left out ([None]). *)
Definition template (v : JsValue) : option string :=
  match v with
  | VString s => Some s
  | VUndefined => Some "undefined"
  | VNull => Some "null"
  | VBoolean true => Some "true"
  | VBoolean false => Some "false"
  | VNaN => Some "NaN"
  | VNumber _ | VError _ | VObject _ => None
  end.

(** [map.get(key)] on a [Map] whose keys are all strings. *)
Definition Map_get {V : Type} (m : gmap string V) (key : JsValue) : option V :=
  match key with
  | VString s => m !! s
  | _ => None
  end.

(** A registered handler: an object with a [handle] method. *)
Record Handler (W : Type) := mkHandler { handle : JsObject -> M W Result }.
Arguments mkHandler {W} handle.
Arguments handle {W} _ _.

Record Mediator (W : Type) := mkMediator {
  commandHandlers : gmap string (Handler W);
  queryHandlers : gmap string (Handler W)
}.
Arguments mkMediator {W} _ _.
Arguments commandHandlers {W} _.
Arguments queryHandlers {W} _.

Definition new_Mediator {W} : Mediator W := mkMediator ∅ ∅.

Definition registerCommandHandler {W} (commandType : string)
    (handler : Handler W) (this : Mediator W) : Mediator W :=
  mkMediator (<[commandType := handler]> (commandHandlers this)) (queryHandlers this).

Definition registerQueryHandler {W} (queryType : string)
    (handler : Handler W) (this : Mediator W) : Mediator W :=
  mkMediator (commandHandlers this) (<[queryType := handler]> (queryHandlers this)).

Section Engine.

(** [TypeError base prop] is what the engine throws for [base.prop] when
    [base] is [undefined] or [null]; its message is the engine's own. *)
Variable TypeError : JsValue -> string -> JsValue.

(** [message.constructor.name] *)
Definition constructor_name (message : JsObject) : Completion JsValue :=
  match Get message "constructor" with
  | None => Throw (TypeError VUndefined "name")
  | Some (PValue VUndefined) => Throw (TypeError VUndefined "name")
  | Some (PValue VNull) => Throw (TypeError VNull "name")
  | Some (PValue v) => Normal (name_of_value v)
  | Some (PDate _) => Normal VUndefined
  | Some (PFunction f) => Normal (VString (name f))
  end.

(** [async dispatch(message)] on an arbitrary object.  The answer is [None]
    where the text of the "No handler" message depends on a conversion
    [template] leaves out. *)
Definition dispatch {W} (this : Mediator W) (message : JsObject) : option (M W Result) :=
  if kind_is message "command" then
    match constructor_name message with
    | Throw exn => Some (lift (Throw exn))
    | Normal n =>
        match Map_get (commandHandlers this) n with
        | Some handler => Some (handle handler message)
        | None =>
            match template n with
            | Some T => Some (ret (failure (new_Error ("No handler for command: " +:+ T))))
            | None => None
            end
        end
    end
  else if kind_is message "query" then
    match constructor_name message with
    | Throw exn => Some (lift (Throw exn))
    | Normal n =>
        match Map_get (queryHandlers this) n with
        | Some handler => Some (handle handler message)
        | None =>
            match template n with
            | Some T => Some (ret (failure (new_Error ("No handler for query: " +:+ T))))
            | None => None
            end
        end
    end
  else
    Some (ret (failure (new_Error "Invalid message type: neither Command nor Query"))).

End Engine.

(** The wording of V8 for a property read on [undefined] or [null]. *)
Definition v8 (base : JsValue) (prop : string) : JsValue :=
  new_Error ("Cannot read properties of "
             +:+ (match base with VNull => "null" | _ => "undefined" end)
             +:+ " (reading '" +:+ prop +:+ "')").

End Untyped.

(** *** The typed request as an object *)



(** *** Requests for the instances *)

(** A handler that answers the failure "Handler boom", as the test's
    [failingHandler] does. *)
Definition boom : Untyped.Handler Console :=
  Untyped.mkHandler (fun _ => ret (failure (new_Error "Handler boom"))).


(** [{ kind: 'command', constructor: CreateUserCommand, payload: {} }]: a
    literal with a [constructor] key of its own. *)
Definition forgedCommand : Untyped.JsObject :=
  Untyped.literal
    [("kind", Untyped.PValue (VString "command"));
     ("constructor", Untyped.PFunction CreateUserCommand);
     ("payload", Untyped.PValue (VObject FNil))].

(** [Object.assign(Object.create(null), { kind: 'command', payload: {} })] *)
Definition bareCommand : Untyped.JsObject :=
  Untyped.create_null
    [("kind", Untyped.PValue (VString "command"));
     ("payload", Untyped.PValue (VObject FNil))].

(** A mediator with [boom] registered for [CreateUserCommand]. *)
Definition boomMediator : Untyped.Mediator Console :=
  Untyped.registerCommandHandler (name CreateUserCommand) boom Untyped.new_Mediator.

(** * Properties *)

(** ** The test suite, replayed *)

Example test_dispatch_registered_command :
  dispatch (registerCommandHandler (name CreateUserCommand) CreateUserHandler new_Mediator)
    jane quiet = (Normal (success VUndefined), quiet).
Proof. reflexivity. Qed.

Example test_void_command :
  dispatch (registerCommandHandler (name LogCommand) LogHandler new_Mediator)
    testLog quiet = (Normal (success VUndefined), [VString "Test log"]).
Proof. reflexivity. Qed.

Example test_no_handler_for_command :
  dispatch new_Mediator jane quiet
  = (Normal (failure (new_Error "No handler for command: CreateUserCommand")), quiet).
Proof. reflexivity. Qed.

Example test_query_found :
  dispatch (registerQueryHandler (name GetUserQuery) GetUserHandler new_Mediator)
    (getUser "123") quiet = (Normal (success testUser), quiet).
Proof. reflexivity. Qed.

Example test_query_not_found :
  dispatch (registerQueryHandler (name GetUserQuery) GetUserHandler new_Mediator)
    (getUser "404") quiet = (Normal (failure (new_Error "User not found")), quiet).
Proof. reflexivity. Qed.

Example test_no_handler_for_query :
  dispatch new_Mediator (getUser "123") quiet
  = (Normal (failure (new_Error "No handler for query: GetUserQuery")), quiet).
Proof. reflexivity. Qed.

Example test_invalid_dispatch :
  dispatch new_Mediator invalid quiet
  = (Normal (failure (new_Error "Invalid message type: neither Command nor Query")), quiet).
Proof. reflexivity. Qed.

Example test_map_on_success :
  map (success testUser) userName quiet = (Normal (success (VString "Test User")), quiet).
Proof. reflexivity. Qed.

Example test_map_on_failure :
  map (failure (new_Error "Fail")) userName quiet
  = (Normal (failure (new_Error "Fail")), quiet).
Proof. reflexivity. Qed.

(** ** Strict equality against a string literal *)

Lemma strict_eq_string_true (v : JsValue) (lit : string) :
  strict_eq_string v lit = true <-> v = VString lit.
Proof.
  destruct v; simpl; try (split; [discriminate | congruence]).
  rewrite bool_decide_eq_true. split; congruence.
Qed.

Lemma strict_eq_string_false (v : JsValue) (lit : string) :
  strict_eq_string v lit = false <-> v <> VString lit.
Proof.
  rewrite <- strict_eq_string_true. destruct (strict_eq_string v lit); split; congruence.
Qed.

Lemma strict_eq_string_refl (lit : string) : strict_eq_string (VString lit) lit = true.
Proof. now apply strict_eq_string_true. Qed.

(** ** The three branches of [dispatch] *)

Section Dispatch.
Context {W : Type}.
Implicit Types (this : Mediator W) (message : Message).

Lemma dispatch_command this message :
  kind message = VString "command" ->
  dispatch this message =
    match commandHandlers this !! name (constructor message) with
    | None =>
        ret (failure (new_Error ("No handler for command: " +:+ name (constructor message))))
    | Some h => CommandHandler.handle h message
    end.
Proof. intros Hk. unfold dispatch. rewrite Hk. reflexivity. Qed.

Lemma dispatch_query this message :
  kind message = VString "query" ->
  dispatch this message =
    match queryHandlers this !! name (constructor message) with
    | None =>
        ret (failure (new_Error ("No handler for query: " +:+ name (constructor message))))
    | Some h => QueryHandler.handle h message
    end.
Proof. intros Hk. unfold dispatch. rewrite Hk. reflexivity. Qed.

Lemma dispatch_fallback this message :
  kind message <> VString "command" ->
  kind message <> VString "query" ->
  dispatch this message =
    ret (failure (new_Error "Invalid message type: neither Command nor Query")).
Proof.
  intros Hc Hq. unfold dispatch.
  apply strict_eq_string_false in Hc, Hq. rewrite Hc, Hq. reflexivity.
Qed.

(** [dispatch] reads each registry at the constructor name only. *)
Lemma dispatch_ext this this' message :
  commandHandlers this !! name (constructor message)
    = commandHandlers this' !! name (constructor message) ->
  queryHandlers this !! name (constructor message)
    = queryHandlers this' !! name (constructor message) ->
  dispatch this message = dispatch this' message.
Proof. intros Hc Hq. unfold dispatch. now rewrite Hc, Hq. Qed.

(** Registration touches one key of one registry. *)
Lemma registerCommandHandler_lookup this T H T' :
  commandHandlers (registerCommandHandler T H this) !! T'
  = if decide (T = T') then Some H else commandHandlers this !! T'.
Proof. unfold registerCommandHandler. simpl. apply lookup_insert. Qed.

Lemma registerQueryHandler_lookup this T H T' :
  queryHandlers (registerQueryHandler T H this) !! T'
  = if decide (T = T') then Some H else queryHandlers this !! T'.
Proof. unfold registerQueryHandler. simpl. apply lookup_insert. Qed.
End Dispatch.

(** ** Facts about [Result] *)

Lemma isSuccess_success (v : JsValue) : isSuccess (success v) = true.
Proof. reflexivity. Qed.

Lemma isSuccess_failure (e : JsValue) : isSuccess (failure e) = strict_eq_undefined e.
Proof. reflexivity. Qed.

Lemma map_on_success {W} (r : Result) (fn : JsValue -> M W JsValue) :
  isSuccess r = true -> map r fn = (v <- fn (value r) ;; ret (success v)).
Proof. intros Hs. unfold map. now rewrite Hs. Qed.

Lemma map_on_failure {W} (r : Result) (fn : JsValue -> M W JsValue) :
  isSuccess r = false -> map r fn = ret (failure (error r)).
Proof. intros Hs. unfold map. now rewrite Hs. Qed.

(** On a success the instrumented transform is called exactly once. *)
Lemma map_success_calls_once {W} (v : JsValue) (fn : JsValue -> M W JsValue) (w : W) (n : nat) :
  snd (snd (map (success v) (counted fn) (w, n))) = S n.
Proof.
  unfold map, bind, counted, ret. simpl.
  destruct (fn v w) as [[x | e] w']; reflexivity.
Qed.

(** ** Dispatch to a registered handler *)

(** C1.  When [H] is the handler registered for the request's constructor
    name [T], [dispatch] is [H]'s [handle] applied to the request: the same
    completion and the same final world.  In particular a [Result.failure]
    made by the handler comes back with its error untouched, and what the
    handler throws is thrown to the caller of [dispatch].  The same holds for
    queries against the query registry. *)
Theorem dispatch_returns_handler_outcome {W} (this : Mediator W) (message : Message) (T : string) :
  name (constructor message) = T ->
  (forall H : CommandHandler.t W,
      kind message = VString "command" ->
      commandHandlers this !! T = Some H ->
      dispatch this message = CommandHandler.handle H message
      /\ (forall w e w', CommandHandler.handle H message w = (Normal (failure e), w') ->
            dispatch this message w = (Normal (failure e), w'))
      /\ (forall w exn w', CommandHandler.handle H message w = (Throw exn, w') ->
            dispatch this message w = (Throw exn, w')))
  /\
  (forall H : QueryHandler.t W,
      kind message = VString "query" ->
      queryHandlers this !! T = Some H ->
      dispatch this message = QueryHandler.handle H message
      /\ (forall w e w', QueryHandler.handle H message w = (Normal (failure e), w') ->
            dispatch this message w = (Normal (failure e), w'))
      /\ (forall w exn w', QueryHandler.handle H message w = (Throw exn, w') ->
            dispatch this message w = (Throw exn, w'))).
Proof.
  intros HT. split; intros H Hk Hreg.
  - assert (Heq : dispatch this message = CommandHandler.handle H message).
    { rewrite (dispatch_command _ _ Hk), HT, Hreg. reflexivity. }
    rewrite Heq. repeat split; auto.
  - assert (Heq : dispatch this message = QueryHandler.handle H message).
    { rewrite (dispatch_query _ _ Hk), HT, Hreg. reflexivity. }
    rewrite Heq. repeat split; auto.
Qed.

(** C2.  A command whose constructor name [T] has no entry in the command
    registry is answered, without throwing and without touching the world, by
    a failure whose error message is ["No handler for command: " ++ T]; a
    query likewise with ["No handler for query: " ++ T]. *)
Theorem dispatch_without_handler_is_failure {W} (this : Mediator W) (message : Message)
    (T : string) (w : W) :
  name (constructor message) = T ->
  (kind message = VString "command" ->
   commandHandlers this !! T = None ->
   exists r, dispatch this message w = (Normal r, w)
     /\ isSuccess r = false
     /\ r = failure (new_Error ("No handler for command: " +:+ T))
     /\ error_message r = VString ("No handler for command: " +:+ T))
  /\
  (kind message = VString "query" ->
   queryHandlers this !! T = None ->
   exists r, dispatch this message w = (Normal r, w)
     /\ isSuccess r = false
     /\ r = failure (new_Error ("No handler for query: " +:+ T))
     /\ error_message r = VString ("No handler for query: " +:+ T)).
Proof.
  intros HT. split; intros Hk Hreg; eexists; (split; [| split; [| split; [reflexivity |]]]).
  - rewrite (dispatch_command _ _ Hk), HT, Hreg. reflexivity.
  - reflexivity.
  - reflexivity.
  - rewrite (dispatch_query _ _ Hk), HT, Hreg. reflexivity.
  - reflexivity.
  - reflexivity.
Qed.

(** C4.  A request whose [kind] is neither ['command'] nor ['query'] is
    answered, without throwing and without touching the world, by a failure
    whose error message is
    ["Invalid message type: neither Command nor Query"]. *)
Theorem dispatch_invalid_kind_is_failure {W} (this : Mediator W) (message : Message) (w : W) :
  kind message <> VString "command" ->
  kind message <> VString "query" ->
  exists r, dispatch this message w = (Normal r, w)
    /\ isSuccess r = false
    /\ r = failure (new_Error "Invalid message type: neither Command nor Query")
    /\ error_message r = VString "Invalid message type: neither Command nor Query".
Proof.
  intros Hc Hq. eexists. split; [| split; [| split; [reflexivity |]]].
  - rewrite (dispatch_fallback _ _ Hc Hq). reflexivity.
  - reflexivity.
  - reflexivity.
Qed.

(** C5.  Registering [H1] and then [H2] under the same type name [T] leaves
    the mediator exactly as registering [H2] alone would: the entry for [T] is
    [H2], and every later dispatch of a request whose constructor name is [T]
    is [H2]'s [handle].  Registration is a total function of the mediator
    state, so it has no failure path.  The same holds for the query
    registry. *)
Theorem reregistration_replaces_handler {W} (this : Mediator W) (T : string) :
  (forall H1 H2 : CommandHandler.t W,
      let this' := registerCommandHandler T H2 (registerCommandHandler T H1 this) in
      this' = registerCommandHandler T H2 this
      /\ commandHandlers this' !! T = Some H2
      /\ (forall message, kind message = VString "command" ->
            name (constructor message) = T ->
            dispatch this' message = CommandHandler.handle H2 message))
  /\
  (forall H1 H2 : QueryHandler.t W,
      let this' := registerQueryHandler T H2 (registerQueryHandler T H1 this) in
      this' = registerQueryHandler T H2 this
      /\ queryHandlers this' !! T = Some H2
      /\ (forall message, kind message = VString "query" ->
            name (constructor message) = T ->
            dispatch this' message = QueryHandler.handle H2 message)).
Proof.
  split; intros H1 H2 this'; subst this'.
  - split; [| split].
    + unfold registerCommandHandler. simpl. now rewrite insert_insert_eq.
    + rewrite registerCommandHandler_lookup. now rewrite decide_True.
    + intros message Hk HT.
      rewrite (dispatch_command _ _ Hk), HT, registerCommandHandler_lookup.
      now rewrite decide_True.
  - split; [| split].
    + unfold registerQueryHandler. simpl. now rewrite insert_insert_eq.
    + rewrite registerQueryHandler_lookup. now rewrite decide_True.
    + intros message Hk HT.
      rewrite (dispatch_query _ _ Hk), HT, registerQueryHandler_lookup.
      now rewrite decide_True.
Qed.

(** ** The algebra of [Result] *)

(** C3.  [map] on a failure returns a failure holding the very error of the
    receiver and never calls the transform: whatever the transform is, the
    world is left as it was, and the call counter of an instrumented
    transform does not move. *)
Theorem map_failure_preserves_error {W} (F : Result) (f : JsValue -> M W JsValue) (w : W) :
  isSuccess F = false ->
  exists F', map F f w = (Normal F', w)
    /\ isSuccess F' = false
    /\ error F' = error F
    /\ F' = failure (error F)
    /\ (forall n : nat, map F (counted f) (w, n) = (Normal F', (w, n))).
Proof.
  intros HF. exists (failure (error F)). repeat split.
  - now rewrite (map_on_failure _ _ HF).
  - exact HF.
  - intros n. now rewrite (map_on_failure _ _ HF).
Qed.

(** C6.  [map] on a success composes: [Result.success(v).map(f).map(g)] runs
    [f] on [v], then [g] on the outcome, and wraps the final value in a
    success; for transforms without effects this is
    [Result.success(g(f(v)))]. *)
Theorem map_success_composes {W} (v : JsValue) :
  (forall (f g : JsValue -> M W JsValue) (w : W),
      (r <- map (success v) f ;; map r g) w
      = (x <- f v ;; y <- g x ;; ret (success y)) w)
  /\
  (forall (f g : JsValue -> JsValue) (w : W),
      (r <- map (success v) (pure_fn f) ;; map r (pure_fn g)) w
      = (Normal (success (g (f v))), w))
  /\
  (forall (f : JsValue -> JsValue) (w : W),
      map (success v) (pure_fn f) w = (Normal (success (f v)), w)).
Proof.
  split; [| split].
  - intros f g w. unfold map, bind, ret. simpl.
    destruct (f v w) as [[x | e] w1]; simpl; [| reflexivity].
    destruct (g x w1) as [[y | e] w2]; reflexivity.
  - intros f g w. reflexivity.
  - intros f w. reflexivity.
Qed.

(** C7.  [unwrap] on a success returns the held value and does not throw;
    [unwrap] on a failure built from an error object throws that error. *)
Theorem unwrap_returns_value_or_throws_error :
  (forall v : JsValue, unwrap (success v) = Normal v)
  /\ (forall e : Error, unwrap (failure (VError e)) = Throw (VError e)).
Proof. split; intros; reflexivity. Qed.

(** C8, as the code has it.  [Result.failure] rejects nothing.  Called with
    [undefined] it builds the void success itself: [isSuccess()] is true,
    [getValue()] and [unwrap()] return [undefined].  Called with [null],
    [getValue()] and [unwrap()] return [undefined] as well and nothing is
    thrown, but [isSuccess()] is false, since [null === undefined] is. *)
Theorem failure_without_error_descriptor :
  (failure VUndefined = success VUndefined
   /\ isSuccess (failure VUndefined) = true
   /\ getValue (failure VUndefined) = Normal VUndefined
   /\ unwrap (failure VUndefined) = Normal VUndefined)
  /\
  (isSuccess (failure VNull) = false
   /\ getValue (failure VNull) = Normal VUndefined
   /\ unwrap (failure VNull) = Normal VUndefined).
Proof. repeat split. Qed.

(** C8 as stated fails at [null]: the outcome does not report success. *)
Lemma failure_null_is_not_success : isSuccess (failure VNull) <> true.
Proof. discriminate. Qed.

(** C10.  [getValue] never throws; on the void success and on every failure
    it returns [undefined], so the two are told apart by [isSuccess] only. *)
Theorem getValue_cannot_tell_void_success_from_failure :
  getValue (success VUndefined) = Normal VUndefined
  /\ (forall e : JsValue, getValue (failure e) = Normal VUndefined)
  /\ (forall r : Result, exists v, getValue r = Normal v)
  /\ (forall e : JsValue, getValue (failure e) = getValue (success VUndefined))
  /\ isSuccess (success VUndefined) = true
  /\ (forall e : Error, isSuccess (failure (VError e)) = false).
Proof.
  repeat split.
  intros r. exists (value r). reflexivity.
Qed.

(** ** Instances on the test suite's handlers *)


Lemma dispatch_returns_handler_outcome_witness :
  dispatch testMediator jane = CommandHandler.handle failingHandler jane
  /\ dispatch testMediator jane quiet = (Normal (failure (new_Error "Handler boom")), quiet)
  /\ dispatch testMediator (getUser "404")
     = QueryHandler.handle GetUserHandler (getUser "404")
  /\ dispatch (registerCommandHandler "CreateUserCommand" throwingHandler new_Mediator)
       jane quiet
     = (Throw (new_Error "boom"), quiet).
Proof.
  split; [| split; [| split]].
  - apply (proj1 (dispatch_returns_handler_outcome testMediator jane
                    "CreateUserCommand" eq_refl) failingHandler); reflexivity.
  - apply (proj1 (dispatch_returns_handler_outcome testMediator jane
                    "CreateUserCommand" eq_refl) failingHandler); reflexivity.
  - apply (proj2 (dispatch_returns_handler_outcome testMediator (getUser "404")
                    "GetUserQuery" eq_refl) GetUserHandler); reflexivity.
  - apply (proj1 (dispatch_returns_handler_outcome
                    (registerCommandHandler "CreateUserCommand" throwingHandler new_Mediator)
                    jane "CreateUserCommand" eq_refl) throwingHandler); reflexivity.
Defined.

Lemma dispatch_without_handler_is_failure_witness :
  (exists r, dispatch new_Mediator jane quiet = (Normal r, quiet)
     /\ isSuccess r = false
     /\ r = failure (new_Error "No handler for command: CreateUserCommand")
     /\ error_message r = VString "No handler for command: CreateUserCommand")
  /\
  (exists r, dispatch new_Mediator (getUser "123") quiet = (Normal r, quiet)
     /\ isSuccess r = false
     /\ r = failure (new_Error "No handler for query: GetUserQuery")
     /\ error_message r = VString "No handler for query: GetUserQuery").
Proof.
  split.
  - apply (proj1 (dispatch_without_handler_is_failure new_Mediator jane
                    "CreateUserCommand" quiet eq_refl)); reflexivity.
  - apply (proj2 (dispatch_without_handler_is_failure new_Mediator (getUser "123")
                    "GetUserQuery" quiet eq_refl)); reflexivity.
Defined.

Lemma map_failure_preserves_error_witness :
  isSuccess (failure (new_Error "Fail")) = false
  /\ exists F', map (failure (new_Error "Fail")) logging quiet = (Normal F', quiet)
       /\ isSuccess F' = false
       /\ error F' = new_Error "Fail"
       /\ F' = failure (new_Error "Fail")
       /\ (forall n : nat,
             map (failure (new_Error "Fail")) (counted logging) (quiet, n)
             = (Normal F', (quiet, n))).
Proof.
  split; [reflexivity |].
  apply (map_failure_preserves_error (failure (new_Error "Fail")) logging quiet).
  reflexivity.
Defined.

Lemma dispatch_invalid_kind_is_failure_witness :
  kind invalid <> VString "command"
  /\ kind invalid <> VString "query"
  /\ exists r, dispatch testMediator invalid quiet = (Normal r, quiet)
       /\ isSuccess r = false
       /\ r = failure (new_Error "Invalid message type: neither Command nor Query")
       /\ error_message r = VString "Invalid message type: neither Command nor Query".
Proof.
  split; [discriminate | split; [discriminate |]].
  apply (dispatch_invalid_kind_is_failure testMediator invalid quiet); discriminate.
Defined.

Lemma reregistration_replaces_handler_witness :
  overwritten = registerCommandHandler "CreateUserCommand" failingHandler new_Mediator
  /\ commandHandlers overwritten !! "CreateUserCommand" = Some failingHandler
  /\ dispatch overwritten jane = CommandHandler.handle failingHandler jane.
Proof.
  destruct (proj1 (reregistration_replaces_handler new_Mediator "CreateUserCommand")
              CreateUserHandler failingHandler) as (Hsame & Hentry & Huse).
  split; [exact Hsame | split; [exact Hentry |]].
  apply Huse; reflexivity.
Defined.

(** * Further properties of [Result] *)

(** [unwrap] cannot throw once [isSuccess] has answered true, and then it
    returns what [getValue] returns. *)
Theorem unwrap_after_isSuccess (r : Result) :
  isSuccess r = true -> unwrap r = Normal (value r) /\ unwrap r = getValue r.
Proof.
  destruct r as [v e]. unfold isSuccess, unwrap, getValue. simpl.
  destruct e; simpl; try discriminate. intros _. split; reflexivity.
Qed.

Lemma ToBoolean_false_iff (v : JsValue) :
  ToBoolean v = false <-> v = VUndefined \/ falsy_defined v.
Proof.
  unfold falsy_defined. destruct v as [| | b | n | | s | e | fs]; simpl.
  - split; [auto | reflexivity].
  - split; [auto | reflexivity].
  - destruct b; split; try discriminate; auto.
    intros [? | [? | [? | [? | [? | ?]]]]]; discriminate.
  - destruct (Z.eqb_spec n 0) as [-> | Hn]; simpl; split; auto; try discriminate.
    intros [? | [? | [? | [? | [? | ?]]]]]; try discriminate. congruence.
  - split; [auto 6 | reflexivity].
  - destruct s; split; auto 7; try discriminate.
    intros [? | [? | [? | [? | [? | ?]]]]]; discriminate.
  - split; [discriminate |].
    intros [? | [? | [? | [? | [? | ?]]]]]; discriminate.
  - split; [discriminate |].
    intros [? | [? | [? | [? | [? | ?]]]]]; discriminate.
Qed.

(** [isSuccess] tests [=== undefined] and [unwrap] tests truthiness.  The two
    disagree (a failure that [unwrap] returns from) exactly when the error is
    [null], [false], [0], [NaN] or the empty string; on a result whose error
    is [undefined] or an error object they agree. *)
Theorem isSuccess_unwrap_disagree_iff (r : Result) :
  (isSuccess r = false /\ unwrap r = Normal (value r) <-> falsy_defined (error r))
  /\ (typed_error r -> (isSuccess r = false <-> unwrap r = Throw (error r))).
Proof.
  split.
  - unfold isSuccess, unwrap. split.
    + intros [Hs Hu]. destruct (ToBoolean (error r)) eqn:Hb; [discriminate |].
      apply ToBoolean_false_iff in Hb. destruct Hb as [Hb | Hb]; [| exact Hb].
      rewrite Hb in Hs. discriminate.
    + intros Hf.
      assert (Hb : ToBoolean (error r) = false) by (apply ToBoolean_false_iff; auto).
      rewrite Hb. split; [| reflexivity].
      destruct Hf as [-> | [-> | [-> | [-> | ->]]]]; reflexivity.
  - unfold isSuccess, unwrap. intros [-> | [e ->]]; simpl; split; congruence.
Qed.

(** [map] with the identity transform gives back the result it was called
    on, for every result [success] or [failure] can build. *)
Theorem map_identity {W} :
  (forall (v : JsValue) (w : W),
      map (success v) (pure_fn (fun x => x)) w = (Normal (success v), w))
  /\ (forall (e : JsValue) (w : W),
      map (failure e) (pure_fn (fun x => x)) w = (Normal (failure e), w)).
Proof.
  split; [reflexivity |].
  intros e w. unfold map. rewrite isSuccess_failure.
  destruct e; reflexivity.
Qed.

(** Two [map]s in a row are one [map] with the transforms chained, on
    successes and failures alike and whatever the transforms do. *)
Theorem map_compose {W} (r : Result) (f g : JsValue -> M W JsValue) (w : W) :
  (r' <- map r f ;; map r' g) w = map r (fun v => x <- f v ;; g x) w.
Proof.
  unfold map. destruct (isSuccess r) eqn:Hs.
  - unfold bind, ret. destruct (f (value r) w) as [[x | exn] w1]; simpl; [| reflexivity].
    destruct (g x w1) as [[y | exn] w2]; reflexivity.
  - unfold bind, ret. simpl. rewrite isSuccess_failure.
    unfold isSuccess in Hs. rewrite Hs. reflexivity.
Qed.

(** When [map] returns, its result is a success exactly when the receiver
    was one. *)
Theorem map_preserves_status {W} (r : Result) (f : JsValue -> M W JsValue)
    (w w' : W) (r' : Result) :
  map r f w = (Normal r', w') -> isSuccess r' = isSuccess r.
Proof.
  unfold map. destruct (isSuccess r) eqn:Hs.
  - unfold bind, ret. destruct (f (value r) w) as [[x | exn] w1]; [| discriminate].
    intros [= <- _]. reflexivity.
  - unfold ret. intros [= <- _]. rewrite isSuccess_failure. exact Hs.
Qed.

(** [map] has no safety net: it throws exactly when it is called on a success
    and the transform throws, with the transform's exception and the world as
    the transform left it. *)
Theorem map_throws_iff {W} (r : Result) (f : JsValue -> M W JsValue)
    (w w' : W) (exn : JsValue) :
  map r f w = (Throw exn, w')
  <-> isSuccess r = true /\ f (value r) w = (Throw exn, w').
Proof.
  unfold map. destruct (isSuccess r) eqn:Hs.
  - unfold bind, ret. destruct (f (value r) w) as [[x | e1] w1]; split.
    + discriminate.
    + intros [_ [=]].
    + intros [= -> ->]. auto.
    + intros [_ [= -> ->]]. reflexivity.
  - unfold ret. split; [discriminate | intros [[=] _]].
Qed.

(** No result the class builds holds both a value and an error: [success]
    and [failure] set one field to [undefined], and whatever [map] is called
    on, the result it returns is of that shape again. *)
Theorem results_stay_exclusive {W} :
  (forall v, exclusive (success v))
  /\ (forall e, exclusive (failure e))
  /\ (forall (r : Result) (f : JsValue -> M W JsValue) (w w' : W) (r' : Result),
        map r f w = (Normal r', w') -> exclusive r').
Proof.
  split; [| split].
  - intros v. right. reflexivity.
  - intros e. left. reflexivity.
  - intros r f w w' r'. unfold map. destruct (isSuccess r).
    + unfold bind, ret. destruct (f (value r) w) as [[x | exn] w1]; [| discriminate].
      intros [= <- _]. right. reflexivity.
    + unfold ret. intros [= <- _]. left. reflexivity.
Qed.

(** * Further properties of the [Mediator] *)

(** The two registries are independent: registering a command handler changes
    nothing for a request that is not a command, and registering a query
    handler nothing for a request that is not a query, even under the name the
    request resolves to. *)
Theorem registries_are_independent {W} (this : Mediator W) (T : string) (message : Message) :
  (forall H : CommandHandler.t W,
      kind message <> VString "command" ->
      dispatch (registerCommandHandler T H this) message = dispatch this message)
  /\ (forall H : QueryHandler.t W,
      kind message <> VString "query" ->
      dispatch (registerQueryHandler T H this) message = dispatch this message).
Proof.
  split; intros H Hk; apply strict_eq_string_false in Hk; unfold dispatch; rewrite Hk.
  - reflexivity.
  - destruct (strict_eq_string (kind message) "command"); reflexivity.
Qed.

(** Registering a handler under [T] changes nothing for a request whose
    constructor name is not [T]. *)
Theorem registration_leaves_other_names {W} (this : Mediator W) (T : string)
    (message : Message) :
  name (constructor message) <> T ->
  (forall H : CommandHandler.t W,
      dispatch (registerCommandHandler T H this) message = dispatch this message)
  /\ (forall H : QueryHandler.t W,
      dispatch (registerQueryHandler T H this) message = dispatch this message).
Proof.
  intros Hne. split; intros H; apply dispatch_ext; try reflexivity.
  - rewrite registerCommandHandler_lookup. rewrite decide_False; [reflexivity | congruence].
  - rewrite registerQueryHandler_lookup. rewrite decide_False; [reflexivity | congruence].
Qed.

(** The order of registrations does not matter: registrations under two
    different names commute, and a command registration always commutes with
    a query registration. *)
Theorem registration_order_is_irrelevant {W} (this : Mediator W) (T1 T2 : string) :
  (forall H1 H2 : CommandHandler.t W,
      T1 <> T2 ->
      registerCommandHandler T1 H1 (registerCommandHandler T2 H2 this)
      = registerCommandHandler T2 H2 (registerCommandHandler T1 H1 this))
  /\ (forall H1 H2 : QueryHandler.t W,
      T1 <> T2 ->
      registerQueryHandler T1 H1 (registerQueryHandler T2 H2 this)
      = registerQueryHandler T2 H2 (registerQueryHandler T1 H1 this))
  /\ (forall (H1 : CommandHandler.t W) (H2 : QueryHandler.t W),
      registerCommandHandler T1 H1 (registerQueryHandler T2 H2 this)
      = registerQueryHandler T2 H2 (registerCommandHandler T1 H1 this)).
Proof.
  split; [| split].
  - intros H1 H2 Hne. unfold registerCommandHandler. simpl.
    f_equal. now apply insert_insert_ne.
  - intros H1 H2 Hne. unfold registerQueryHandler. simpl.
    f_equal. now apply insert_insert_ne.
  - intros H1 H2. reflexivity.
Qed.

(** Register, then dispatch: a handler registered under [C.name] receives
    every [new C(...)] built through [BaseCommand] (resp. [BaseQuery]),
    whatever the registries held before, and [dispatch] is that handler's
    [handle]. *)
Theorem register_then_dispatch {W} (this : Mediator W) (C : Function)
    (i : string) (t : Z) (b : JsValue) :
  (forall H : CommandHandler.t W,
      dispatch (registerCommandHandler (name C) H this) (new_BaseCommand C i t b)
      = CommandHandler.handle H (new_BaseCommand C i t b))
  /\ (forall H : QueryHandler.t W,
      dispatch (registerQueryHandler (name C) H this) (new_BaseQuery C i t b)
      = QueryHandler.handle H (new_BaseQuery C i t b)).
Proof.
  split; intros H.
  - rewrite dispatch_command by reflexivity.
    rewrite registerCommandHandler_lookup. now rewrite decide_True.
  - rewrite dispatch_query by reflexivity.
    rewrite registerQueryHandler_lookup. now rewrite decide_True.
Qed.

(** A [map] chained after a dispatch that found no handler keeps the
    dispatcher's failure and never calls the transform: the result and the
    world are those of the dispatch alone, and the call counter of an
    instrumented transform does not move. *)
Theorem map_after_unhandled_dispatch {W} (this : Mediator W) (message : Message)
    (f : JsValue -> M W JsValue) (w : W) :
  commandHandlers this !! name (constructor message) = None ->
  queryHandlers this !! name (constructor message) = None ->
  exists r,
    dispatch this message w = (Normal r, w)
    /\ isSuccess r = false
    /\ (r' <- dispatch this message ;; map r' f) w = (Normal r, w)
    /\ (forall n : nat, map r (counted f) (w, n) = (Normal r, (w, n))).
Proof.
  intros Hc Hq.
  assert (Hd : exists msg, dispatch this message = ret (failure (new_Error msg))).
  { unfold dispatch. rewrite Hc, Hq.
    destruct (strict_eq_string (kind message) "command");
      [| destruct (strict_eq_string (kind message) "query")];
      eexists; reflexivity. }
  destruct Hd as [msg Hd]. exists (failure (new_Error msg)).
  unfold bind. rewrite Hd. repeat split.
Qed.

(** * The handlers of the tests and of the example application *)

(** The test suite's [GetUserHandler] behind the mediator: a query whose
    params object has [userId === "123"] is answered by the test user, every
    other params object by the failure "User not found"; nothing is thrown
    and, the handler having no effects, the world is untouched. *)
Theorem GetUserHandler_scenario (this : Mediator Console) (fields : Fields)
    (i : string) (t : Z) (w : Console) :
  let query := new_BaseQuery GetUserQuery i t (VObject fields) in
  let bootstrapped := registerQueryHandler (name GetUserQuery) GetUserHandler this in
  (assoc_field "userId" fields = VString "123" ->
     dispatch bootstrapped query w = (Normal (success testUser), w))
  /\ (assoc_field "userId" fields <> VString "123" ->
     dispatch bootstrapped query w = (Normal (failure (new_Error "User not found")), w)).
Proof.
  intros query bootstrapped.
  assert (Hd : dispatch bootstrapped query = QueryHandler.handle GetUserHandler query).
  { subst bootstrapped. rewrite dispatch_query by reflexivity.
    rewrite registerQueryHandler_lookup. now rewrite decide_True. }
  rewrite Hd. unfold GetUserHandler, query. simpl. split; intros Hu.
  - rewrite Hu. reflexivity.
  - apply strict_eq_string_false in Hu. rewrite Hu. reflexivity.
Qed.

Lemma prefix_empty (s : string) : String.prefix EmptyString s = true.
Proof. destruct s; reflexivity. Qed.

Lemma includes_at (s : string) :
  Examples.includes s "@" = true <-> In "@"%char (String.list_ascii_of_string s).
Proof.
  induction s as [| c s IH];
    cbn [Examples.includes String.prefix String.list_ascii_of_string In].
  - split; [discriminate | tauto].
  - destruct (Ascii.ascii_dec "@" c) as [Heq | Hne].
    + rewrite prefix_empty. split; auto.
    + rewrite IH. split; [auto |]. intros [Hc | Hin]; [congruence | exact Hin].
Qed.

(** The validation scenario end to end: once the example's
    [CreateUserHandler] is registered under [CreateUserCommand.name],
    dispatching [new CreateUserCommand({ name, email })] with a string email
    returns the void success when the email holds the character "@", and the
    failure "Invalid email format" when it does not. *)
Theorem create_user_validation (TypeError : Examples.TypeErrorCause -> Error)
    (this : Mediator Examples.Log) (name_ : JsValue) (email i : string) (t : Z)
    (w : Examples.Log) :
  let command :=
    new_BaseCommand CreateUserCommand i t
      (VObject (FCons "name" name_ (FCons "email" (VString email) FNil))) in
  let bootstrapped :=
    registerCommandHandler (name CreateUserCommand) (Examples.CreateUserHandler TypeError) this in
  (In "@"%char (String.list_ascii_of_string email) ->
     exists w', dispatch bootstrapped command w = (Normal (success VUndefined), w'))
  /\ (~ In "@"%char (String.list_ascii_of_string email) ->
     exists w', dispatch bootstrapped command w
                = (Normal (failure (new_Error "Invalid email format")), w')).
Proof.
  intros command bootstrapped.
  assert (Hd : dispatch bootstrapped command
               = CommandHandler.handle (Examples.CreateUserHandler TypeError) command).
  { subst bootstrapped. rewrite dispatch_command by reflexivity.
    rewrite registerCommandHandler_lookup. now rewrite decide_True. }
  rewrite Hd. subst command.
  unfold Examples.CreateUserHandler, try_catch, bind, lift, ret,
    Examples.console_log_args, Examples.get_prop.
  cbn [CommandHandler.handle body new_BaseCommand get_field].
  replace (assoc_field "email" (FCons "name" name_ (FCons "email" (VString email) FNil)))
    with (VString email) by reflexivity.
  cbn [Examples.call_includes].
  split; intros Hin.
  - apply includes_at in Hin. rewrite Hin. eexists. reflexivity.
  - destruct (Examples.includes email "@") eqn:Hi.
    + apply includes_at in Hi. contradiction.
    + eexists. reflexivity.
Qed.

(** ** Instances of the further properties *)

Lemma unwrap_after_isSuccess_witness :
  isSuccess (success testUser) = true
  /\ unwrap (success testUser) = Normal testUser
  /\ unwrap (success testUser) = getValue (success testUser).
Proof.
  split; [reflexivity |].
  apply (unwrap_after_isSuccess (success testUser)). reflexivity.
Defined.

Lemma isSuccess_unwrap_disagree_iff_witness :
  (isSuccess (failure VNull) = false /\ unwrap (failure VNull) = Normal VUndefined)
  /\ (isSuccess (failure (new_Error "Fail")) = false
      -> unwrap (failure (new_Error "Fail")) = Throw (new_Error "Fail")).
Proof.
  split.
  - apply (proj1 (isSuccess_unwrap_disagree_iff (failure VNull))).
    left. reflexivity.
  - apply (proj2 (isSuccess_unwrap_disagree_iff (failure (new_Error "Fail")))).
    right. exists (mkError "Fail"). reflexivity.
Defined.

Lemma map_preserves_status_witness :
  map (success testUser) userName quiet = (Normal (success (VString "Test User")), quiet)
  /\ isSuccess (success (VString "Test User")) = isSuccess (success testUser).
Proof.
  split; [reflexivity |].
  apply (map_preserves_status (success testUser) userName quiet quiet). reflexivity.
Defined.

Lemma map_throws_iff_witness :
  isSuccess (success testUser) = true
  /\ throwing testUser quiet = (Throw (new_Error "bad"), quiet)
  /\ map (success testUser) throwing quiet = (Throw (new_Error "bad"), quiet).
Proof.
  split; [reflexivity | split; [reflexivity |]].
  apply (proj2 (map_throws_iff (success testUser) throwing quiet quiet (new_Error "bad"))).
  split; reflexivity.
Defined.

Lemma results_stay_exclusive_witness :
  map (success testUser) userName quiet = (Normal (success (VString "Test User")), quiet)
  /\ exclusive (success (VString "Test User")).
Proof.
  split; [reflexivity |].
  apply (proj2 (proj2 (@results_stay_exclusive Console))
           (success testUser) userName quiet quiet).
  reflexivity.
Defined.

Lemma registries_are_independent_witness :
  kind (getUser "123") <> VString "command"
  /\ dispatch (registerCommandHandler "GetUserQuery" failingHandler new_Mediator)
       (getUser "123")
     = dispatch new_Mediator (getUser "123").
Proof.
  split; [discriminate |].
  apply (proj1 (registries_are_independent new_Mediator "GetUserQuery" (getUser "123"))).
  discriminate.
Defined.

Lemma registration_leaves_other_names_witness :
  name (constructor jane) <> "LogCommand"
  /\ dispatch (registerCommandHandler "LogCommand" LogHandler testMediator) jane
     = dispatch testMediator jane.
Proof.
  split; [discriminate |].
  apply (proj1 (registration_leaves_other_names testMediator "LogCommand" jane
                  ltac:(discriminate))).
Defined.

Lemma registration_order_is_irrelevant_witness :
  "CreateUserCommand" <> "LogCommand"
  /\ registerCommandHandler "CreateUserCommand" CreateUserHandler
       (registerCommandHandler "LogCommand" LogHandler new_Mediator)
     = registerCommandHandler "LogCommand" LogHandler
         (registerCommandHandler "CreateUserCommand" CreateUserHandler new_Mediator).
Proof.
  split; [discriminate |].
  apply (proj1 (registration_order_is_irrelevant new_Mediator
                  "CreateUserCommand" "LogCommand")).
  discriminate.
Defined.

Lemma map_after_unhandled_dispatch_witness :
  exists r,
    dispatch new_Mediator jane quiet = (Normal r, quiet)
    /\ isSuccess r = false
    /\ (r' <- dispatch new_Mediator jane ;; map r' logging) quiet = (Normal r, quiet)
    /\ (forall n : nat, map r (counted logging) (quiet, n) = (Normal r, (quiet, n))).
Proof.
  apply (map_after_unhandled_dispatch new_Mediator jane logging quiet); reflexivity.
Defined.

Lemma GetUserHandler_scenario_witness :
  dispatch (registerQueryHandler (name GetUserQuery) GetUserHandler new_Mediator)
    (getUser "123") quiet = (Normal (success testUser), quiet)
  /\ dispatch (registerQueryHandler (name GetUserQuery) GetUserHandler new_Mediator)
       (getUser "999") quiet = (Normal (failure (new_Error "User not found")), quiet).
Proof.
  split.
  - apply (proj1 (GetUserHandler_scenario new_Mediator
                    (FCons "userId" (VString "123") FNil) "query-3-0.5" 3 quiet)).
    reflexivity.
  - apply (proj2 (GetUserHandler_scenario new_Mediator
                    (FCons "userId" (VString "999") FNil) "query-3-0.5" 3 quiet)).
    discriminate.
Defined.

Lemma create_user_validation_witness :
  (exists w',
      dispatch (registerCommandHandler (name CreateUserCommand)
                  (Examples.CreateUserHandler Examples.v8) new_Mediator)
        (Examples.createUser (VString "Alice") (VString "alice@example.com")) []
      = (Normal (success VUndefined), w'))
  /\ (exists w',
      dispatch (registerCommandHandler (name CreateUserCommand)
                  (Examples.CreateUserHandler Examples.v8) new_Mediator)
        (Examples.createUser (VString "Bob") (VString "invalid-email")) []
      = (Normal (failure (new_Error "Invalid email format")), w')).
Proof.
  split.
  - apply (proj1 (create_user_validation Examples.v8 new_Mediator (VString "Alice")
                    "alice@example.com" "cmd-7-0.5" 7 [])).
    vm_compute. tauto.
  - apply (proj2 (create_user_validation Examples.v8 new_Mediator (VString "Bob")
                    "invalid-email" "cmd-7-0.5" 7 [])).
    vm_compute. intuition discriminate.
Defined.

(** * [dispatch] on arbitrary objects *)

Section UntypedDispatch.
Context {W : Type} (TypeError : JsValue -> string -> JsValue).
Implicit Types (this : Untyped.Mediator W) (message : Untyped.JsObject).

Lemma kind_is_true message (lit : string) :
  Untyped.kind_is message lit = true
  <-> Untyped.Get message "kind" = Some (Untyped.PValue (VString lit)).
Proof.
  unfold Untyped.kind_is.
  destruct (Untyped.Get message "kind") as [[v | ms | f] |];
    try (split; discriminate).
  rewrite strict_eq_string_true. split; congruence.
Qed.

Lemma kind_is_other message (a b : string) :
  Untyped.kind_is message a = true -> a <> b -> Untyped.kind_is message b = false.
Proof.
  intros Ha Hne. apply kind_is_true in Ha. unfold Untyped.kind_is. rewrite Ha.
  apply strict_eq_string_false. congruence.
Qed.







End UntypedDispatch.

(** Two requests outside the declared types: a literal with a [constructor]
    key of its own reaches the handler registered under that class, and an
    object without any [constructor] makes [dispatch] throw. *)
Example forged_literal_reaches_handler :
  Untyped.dispatch Untyped.v8 boomMediator forgedCommand
  = Some (Untyped.handle boom forgedCommand)
  /\ Untyped.handle boom forgedCommand quiet
     = (Normal (failure (new_Error "Handler boom")), quiet).
Proof. split; reflexivity. Qed.

Example bare_object_makes_dispatch_throw :
  Untyped.dispatch Untyped.v8 boomMediator bareCommand
  = Some (lift (Throw (new_Error "Cannot read properties of undefined (reading 'name')"))).
Proof. reflexivity. Qed.

(** ** The registry key *)



(** ** Requests without a constructor, and the new mediator *)

(** A request of kind ['command'] or ['query'] whose [constructor] property
    is absent, [undefined] or [null] makes [dispatch] throw the engine's
    [TypeError] for the read of [.name]: whatever the registries hold, before
    any handler is looked up, and with the world untouched. *)
Theorem dispatch_throws_without_constructor {W} (TypeError : JsValue -> string -> JsValue)
    (this : Untyped.Mediator W) (message : Untyped.JsObject) :
  Untyped.kind_is message "command" = true \/ Untyped.kind_is message "query" = true ->
  Untyped.Get message "constructor" = None
  \/ Untyped.Get message "constructor" = Some (Untyped.PValue VUndefined)
  \/ Untyped.Get message "constructor" = Some (Untyped.PValue VNull) ->
  exists base run,
    (base = VUndefined \/ base = VNull)
    /\ Untyped.dispatch TypeError this message = Some run
    /\ forall w : W, run w = (Throw (TypeError base "name"), w).
Proof.
  intros Hkind Hctor.
  assert (Hn : exists base, (base = VUndefined \/ base = VNull)
             /\ Untyped.constructor_name TypeError message = Throw (TypeError base "name")).
  { unfold Untyped.constructor_name.
    destruct Hctor as [-> | [-> | ->]]; eauto. }
  destruct Hn as (base & Hbase & Hn). exists base.
  exists (lift (Throw (TypeError base "name"))). split; [exact Hbase |].
  split; [| reflexivity].
  unfold Untyped.dispatch. destruct Hkind as [Hk | Hk].
  - rewrite Hk, Hn. reflexivity.
  - rewrite (kind_is_other message "query" "command" Hk) by discriminate.
    rewrite Hk, Hn. reflexivity.
Qed.


(** ** The example application's [CreateUserHandler] *)

(** [CreateUserHandler.handle] never throws: its [try]/[catch] turns every
    exception into a failure.  With a string email holding an "@" it logs
    twice and returns the void success; with a string email without "@" it
    logs once and returns the failure "Invalid email format"; with a payload
    that is [undefined] or [null], or an email that is missing, [undefined]
    or [null], it logs once and returns a failure holding the engine's
    [TypeError]. *)
Theorem CreateUserHandler_catches_everything (TypeError : Examples.TypeErrorCause -> Error)
    (command : Message) (w : Examples.Log) :
  let run := CommandHandler.handle (Examples.CreateUserHandler TypeError) command w in
  let first := [VString "Creating user:"; body command] in
  (exists r w', run = (Normal r, w'))
  /\ (forall s : string,
        get_field (body command) "email" = VString s ->
        run = if Examples.includes s "@"
              then (Normal (success VUndefined),
                    ((w ++ [first]) ++ [[VString "User created successfully!"]])%list)
              else (Normal (failure (new_Error "Invalid email format")),
                    (w ++ [first])%list))
  /\ (body command = VUndefined \/ body command = VNull
      \/ get_field (body command) "email" = VUndefined
      \/ get_field (body command) "email" = VNull ->
      exists cause,
        run = (Normal (failure (VError (TypeError cause))), (w ++ [first])%list)).
Proof.
  intros run first. subst run first. destruct command as [k i t b p].
  unfold Examples.CreateUserHandler, try_catch, bind, lift, ret,
    Examples.console_log_args, Examples.get_prop. cbn [CommandHandler.handle body].
  split; [| split].
  - destruct b as [| | bb | n | | s | e | fs]; try (cbn; eauto; fail).
    cbn [get_field]. destruct (assoc_field "email" fs) as [| | bb | n | | s | e | fs'];
      try (cbn; eauto; fail).
    cbn [Examples.call_includes]. destruct (Examples.includes s "@"); eauto.
  - intros s Hs. destruct b as [| | bb | n | | s' | e | fs];
      cbn in Hs; try discriminate.
    cbn [get_field]. rewrite Hs. cbn [Examples.call_includes].
    destruct (Examples.includes s "@"); reflexivity.
  - intros Hnull. destruct b as [| | bb | n | | s | e | fs];
      try (cbn; eauto; fail).
    cbn [body get_field] in Hnull. cbn [get_field].
    destruct Hnull as [Hb | [Hb | [He | He]]]; try discriminate;
      rewrite He; cbn; eauto.
Qed.

(** ** Instances *)

Lemma dispatch_throws_without_constructor_witness :
  Untyped.kind_is bareCommand "command" = true
  /\ Untyped.Get bareCommand "constructor" = None
  /\ exists base run,
       (base = VUndefined \/ base = VNull)
       /\ Untyped.dispatch Untyped.v8 boomMediator bareCommand = Some run
       /\ forall w : Console, run w = (Throw (Untyped.v8 base "name"), w).
Proof.
  split; [reflexivity | split; [reflexivity |]].
  apply (dispatch_throws_without_constructor Untyped.v8 boomMediator bareCommand).
  - left. reflexivity.
  - left. reflexivity.
Defined.


Lemma CreateUserHandler_catches_everything_witness :
  CommandHandler.handle (Examples.CreateUserHandler Examples.v8)
    (Examples.createUser (VString "Bob") (VString "invalid-email")) []
  = (Normal (failure (new_Error "Invalid email format")),
     [[VString "Creating user:";
       body (Examples.createUser (VString "Bob") (VString "invalid-email"))]])
  /\ exists cause,
       CommandHandler.handle (Examples.CreateUserHandler Examples.v8)
         (Examples.createUser (VString "Bob") VUndefined) []
       = (Normal (failure (VError (Examples.v8 cause))),
          [[VString "Creating user:";
            body (Examples.createUser (VString "Bob") VUndefined)]]).
Proof.
  split.
  - apply (proj1 (proj2 (CreateUserHandler_catches_everything Examples.v8
             (Examples.createUser (VString "Bob") (VString "invalid-email")) []))
             "invalid-email").
    reflexivity.
  - apply (proj2 (proj2 (CreateUserHandler_catches_everything Examples.v8
             (Examples.createUser (VString "Bob") VUndefined) []))).
    right. right. left. reflexivity.
Defined.
